(** * porter-clone: the landing page as a markup-tree program

    A shallow embedding of the TypeScript/JSX sources of the landing page
    (src/app/page.tsx, src/components/layout/{Header,Footer}.tsx,
    src/components/home/{Hero,Services,Features,Testimonials}.tsx,
    src/constants/index.ts, src/types/index.ts) and the properties of its
    rendered output.

    - A React element is a value of [Node]; JSX text is [Text], a number
      placed in braces is [Num], an element carries its tag, its React [key],
      its props, its [onClick] handler and its children.
    - What a function of the program may do to the outside is explicit: a
      computation is a function from a [World] (the clock, the console, the
      browser location) to a result and a new [World].
    - A module-level [const] is evaluated once, when the module is imported;
      a component is a function called at every render. *)

From Stdlib Require Import List String Ascii ZArith Bool Lia DecimalString.
Import ListNotations.
Local Open Scope string_scope.
Local Open Scope list_scope.

Set Implicit Arguments.

(** ** The outside world and effectful computations *)

(** The part of the JavaScript host the sources touch: [new Date()] reads the
    clock, [console.log] appends a line to the console; [location] is where
    the browser is, which a navigation would change. *)
Record World : Type := mkWorld {
  fullYear : Z;              (* what [new Date().getFullYear()] returns now *)
  console  : list string;    (* lines logged so far, oldest first *)
  location : string          (* the URL the browser shows *)
}.

Definition Eff (A : Type) : Type := World -> A * World.

Definition ret {A : Type} (a : A) : Eff A := fun w => (a, w).

Definition bind {A B : Type} (c : Eff A) (k : A -> Eff B) : Eff B :=
  fun w => let (a, w') := c w in k a w'.

Notation "x <- c ;; k" := (bind c (fun x => k))
  (at level 61, c at next level, right associativity).

(** [new Date().getFullYear()] *)
Definition Date_getFullYear : Eff Z := fun w => (fullYear w, w).

(** [console.log(line)] *)
Definition console_log (line : string) : Eff unit :=
  fun w => (tt, mkWorld (fullYear w) (console w ++ [line]) (location w)).

Definition result {A : Type} (c : Eff A) (w : World) : A := fst (c w).
Definition after {A : Type} (c : Eff A) (w : World) : World := snd (c w).

(** ** Markup trees *)

(** The value of a prop: a string literal, a class name looked up in a CSS
    module ([styles.header] with [styles] imported from
    ['./Header.module.css']), the class of a font object of [next/font], or a
    template literal joining two of them. *)
Inductive AttrVal : Type :=
| Str (s : string)
| Css (file : string) (name : string)
| FontClass (family : string)
| Cat (a b : AttrVal).

#[warnings="-register-all"]
Inductive Node : Type :=
| Text (s : string)
| Num (n : Z)
| El (tag : string) (key : option string) (props : list (string * AttrVal))
     (onClick : option (Eff unit)) (children : list Node).

(** An element with no key and no handler. *)
Definition elt (tag : string) (props : list (string * AttrVal)) (children : list Node) : Node :=
  El tag None props None children.

(** The double quote character, JSX's [&quot;]. *)
Definition quot : string := String (ascii_of_nat 34) EmptyString.

(** ** src/types/index.ts *)

Module NavLink.
Record t : Type := mk { href : string; label : string }.
End NavLink.

Module Service.
Record t : Type := mk { id : string; title : string; description : string; icon : string }.
End Service.

Module Feature.
Record t : Type := mk { id : string; icon : string; title : string; description : string }.
End Feature.

Module Testimonial.
Record t : Type := mk { id : string; quote : string; name : string; role : string; avatar : string }.
End Testimonial.

Module FooterLink.
Record t : Type := mk { label : string; href : string }.
End FooterLink.

Module FooterColumn.
Record t : Type := mk { title : string; links : list FooterLink.t }.
End FooterColumn.

Module SocialLink.
Record t : Type := mk { icon : string; label : string; href : string }.
End SocialLink.

(** [interface ServiceOption] of Hero.tsx; the registry's SERVICE_OPTIONS has
    the same shape by inference. *)
Module ServiceOption.
Record t : Type := mk { icon : string; label : string }.
End ServiceOption.

(** ** src/constants/index.ts: the central content registry *)

Module Constants.

(* Navigation *)
Definition NAV_LINKS : list NavLink.t := [
    {| NavLink.href := "/enterprise"; NavLink.label := "For Enterprise" |};
    {| NavLink.href := "/partners"; NavLink.label := "Delivery Partners" |};
    {| NavLink.href := "/support"; NavLink.label := "Support" |}
  ].

(* Services *)
Definition SERVICES : list Service.t := [
    {| Service.id := "two-wheeler";
       Service.title := "2 Wheeler";
       Service.description := "Send packages up to 20kg anytime, anywhere in the city.";
       Service.icon := "🏍️" |};
    {| Service.id := "trucks";
       Service.title := "Trucks";
       Service.description := "Rent Tata Ace, 8ft Pickup, and more for goods movement.";
       Service.icon := "🚚" |};
    {| Service.id := "packers-movers";
       Service.title := "Packers & Movers";
       Service.description := "Shift your house or office with our safe and reliable services.";
       Service.icon := "📦" |};
    {| Service.id := "enterprise";
       Service.title := "Enterprise";
       Service.description := "Logistics solutions for businesses of all sizes.";
       Service.icon := "🏢" |}
  ].

(* Features *)
Definition FEATURES : list Feature.t := [
    {| Feature.id := "on-time-delivery";
       Feature.icon := "⏱️";
       Feature.title := "On-Time Delivery";
       Feature.description :=
         "Reliable service that ensures your goods reach their destination on time, every time." |};
    {| Feature.id := "real-time-tracking";
       Feature.icon := "📍";
       Feature.title := "Real-time Tracking";
       Feature.description :=
         "Track your goods in real-time and stay updated with the location of your package." |};
    {| Feature.id := "economical-pricing";
       Feature.icon := "💰";
       Feature.title := "Economical Pricing";
       Feature.description :=
         "Get the best rates in the market with transparent pricing and no hidden charges." |}
  ].

(* Testimonials *)
Definition TESTIMONIALS : list Testimonial.t := [
    {| Testimonial.id := "testimonial-1";
       Testimonial.quote :=
         "Porter has completely transformed how we manage our logistics. The real-time tracking is a game changer for our business.";
       Testimonial.name := "Rajesh Kumar";
       Testimonial.role := "Business Owner";
       Testimonial.avatar := "RK" |};
    {| Testimonial.id := "testimonial-2";
       Testimonial.quote :=
         "Excellent service! The driver was polite and helpful. I moved my entire house with Porter and it was hassle-free.";
       Testimonial.name := "Priya Singh";
       Testimonial.role := "Home Maker";
       Testimonial.avatar := "PS" |};
    {| Testimonial.id := "testimonial-3";
       Testimonial.quote :=
         "Affordable and reliable. I use Porter for all my ad-hoc delivery needs. Highly recommended.";
       Testimonial.name := "Amit Patel";
       Testimonial.role := "Freelancer";
       Testimonial.avatar := "AP" |}
  ].

(* Footer *)
Definition FOOTER_COLUMNS : list FooterColumn.t := [
    {| FooterColumn.title := "Company";
       FooterColumn.links := [
         {| FooterLink.label := "About Us"; FooterLink.href := "/about" |};
         {| FooterLink.label := "Offers"; FooterLink.href := "/offers" |};
         {| FooterLink.label := "Careers"; FooterLink.href := "/careers" |};
         {| FooterLink.label := "Blog"; FooterLink.href := "/blog" |}
       ] |};
    {| FooterColumn.title := "Services";
       FooterColumn.links := [
         {| FooterLink.label := "City Tempo"; FooterLink.href := "/services/city-tempo" |};
         {| FooterLink.label := "Packers & Movers"; FooterLink.href := "/services/packers-movers" |};
         {| FooterLink.label := "Driver Partners"; FooterLink.href := "/partners" |};
         {| FooterLink.label := "Enterprise"; FooterLink.href := "/enterprise" |}
       ] |};
    {| FooterColumn.title := "Support";
       FooterColumn.links := [
         {| FooterLink.label := "Help Center"; FooterLink.href := "/help" |};
         {| FooterLink.label := "Contact Us"; FooterLink.href := "/contact" |};
         {| FooterLink.label := "Privacy Policy"; FooterLink.href := "/privacy" |};
         {| FooterLink.label := "Terms of Service"; FooterLink.href := "/terms" |}
       ] |};
    {| FooterColumn.title := "Download App";
       FooterColumn.links := [
         {| FooterLink.label := "Android"; FooterLink.href := "https://play.google.com/store" |};
         {| FooterLink.label := "iOS"; FooterLink.href := "https://apps.apple.com" |}
       ] |}
  ].

Definition SOCIAL_LINKS : list SocialLink.t := [
    {| SocialLink.icon := "F"; SocialLink.label := "Facebook"; SocialLink.href := "#" |};
    {| SocialLink.icon := "T"; SocialLink.label := "Twitter"; SocialLink.href := "#" |};
    {| SocialLink.icon := "I"; SocialLink.label := "Instagram"; SocialLink.href := "#" |};
    {| SocialLink.icon := "L"; SocialLink.label := "LinkedIn"; SocialLink.href := "#" |}
  ].

(* Hero *)
Definition DEFAULT_CITY : string := "Ahmedabad".

Definition SERVICE_OPTIONS : list ServiceOption.t := [
    {| ServiceOption.icon := "🚚"; ServiceOption.label := "Truck" |};
    {| ServiceOption.icon := "🛵"; ServiceOption.label := "Two Wheeler" |};
    {| ServiceOption.icon := "📦"; ServiceOption.label := "Packers & Movers" |}
  ].

(* Utility: [export const CURRENT_YEAR = new Date().getFullYear();], the
     initialiser run when the module is imported. *)
Definition CURRENT_YEAR : Eff Z := Date_getFullYear.

End Constants.

(** ** src/components/layout/Header.tsx *)

Module Header.

Definition styles : string -> AttrVal := Css "./Header.module.css".

Definition NAV_LINKS : list NavLink.t := [
  {| NavLink.href := "/enterprise"; NavLink.label := "For Enterprise" |};
  {| NavLink.href := "/partners"; NavLink.label := "Delivery Partners" |};
  {| NavLink.href := "/support"; NavLink.label := "Support" |}
].

(** [(link) => <Link key={link.href} ...>], the callback of [NAV_LINKS.map]. *)
Definition nav_item (link : NavLink.t) : Node :=
  El "Link" (Some (NavLink.href link))
     [("href", Str (NavLink.href link)); ("className", styles "navLink")]
     None
     [Text (NavLink.label link)].

(** Header - Navigation header component with logo and main navigation links.
    [Link] is the component of next/link; it is kept as an element of that
    name. *)
Definition Header : Eff Node :=
  ret
    (elt "header" [("className", styles "header")] [
       elt "div" [("className", Cat (Str "container ") (styles "headerContainer"))] [
         elt "Link" [("href", Str "/"); ("className", styles "logo");
                     ("aria-label", Str "Porter Home")] [
           Text "PORTER"
         ];

         elt "nav" [("className", styles "nav"); ("aria-label", Str "Main navigation")]
           (map (fun link =>
                   El "Link" (Some (NavLink.href link))
                      [("href", Str (NavLink.href link)); ("className", styles "navLink")]
                      None
                      [Text (NavLink.label link)])
                NAV_LINKS);

         elt "div" [("className", styles "actions")] [
           elt "button" [("className", styles "secondaryBtn");
                         ("aria-label", Str "Track your order")] [
             Text "Track Order"
           ];
           elt "button" [("className", styles "primaryBtn");
                         ("aria-label", Str "Login to account")] [
             Text "Login"
           ]
         ]
       ]
     ]).

End Header.

(** ** src/components/home/Hero.tsx *)

Module Hero.

Definition styles : string -> AttrVal := Css "./Hero.module.css".

Definition SERVICE_OPTIONS : list ServiceOption.t := [
  {| ServiceOption.icon := "🚚"; ServiceOption.label := "Truck" |};
  {| ServiceOption.icon := "🛵"; ServiceOption.label := "Two Wheeler" |};
  {| ServiceOption.icon := "📦"; ServiceOption.label := "Packers & Movers" |}
].

Definition DEFAULT_CITY : string := "Ahmedabad".

(** The closure [handleGetEstimate] that every call of [Hero] creates.
    TODO of the source: navigate to estimate page or open booking flow. *)
Definition handleGetEstimate : Eff unit :=
  console_log "Get estimate clicked".

(** [(service) => <div key={service.label} ...>], the callback of
    [SERVICE_OPTIONS.map]. *)
Definition service_option (service : ServiceOption.t) : Node :=
  El "div" (Some (ServiceOption.label service))
     [("className", styles "serviceOption")] None [
    elt "span" [("className", styles "serviceIcon"); ("aria-hidden", Str "true")] [
      Text (ServiceOption.icon service)
    ];
    elt "span" [("className", styles "serviceLabel")] [
      Text (ServiceOption.label service)
    ]
  ].

(** Hero - Hero section component with main value proposition and service
    selection widget. *)
Definition Hero : Eff Node :=
  ret
    (elt "section" [("className", styles "heroSection")] [
       elt "div" [("className", Str "container")] [
         elt "div" [("className", styles "heroContent")] [
           elt "h2" [("className", styles "heroTitle")] [Text "Delivery hai?"];
           elt "h1" [("className", styles "heroHashtag")] [Text "#HoJayega!"]
         ]
       ];

       elt "div" [("className", styles "floatingWidgetContainer")] [
         elt "div" [("className", styles "floatingWidget")] [
           elt "div" [("className", styles "citySelector"); ("role", Str "region");
                      ("aria-label", Str "Location selector")] [
             elt "span" [("className", styles "cityIcon"); ("aria-hidden", Str "true")] [
               Text "📍"
             ];
             elt "span" [] [
               Text "City: "; elt "strong" [] [Text DEFAULT_CITY]
             ];
             elt "span" [("aria-hidden", Str "true")] [Text "▼"]
           ];

           elt "div" [("className", styles "servicesGrid"); ("role", Str "region");
                      ("aria-label", Str "Service options")]
             (map (fun service =>
                     El "div" (Some (ServiceOption.label service))
                        [("className", styles "serviceOption")] None [
                       elt "span" [("className", styles "serviceIcon");
                                   ("aria-hidden", Str "true")] [
                         Text (ServiceOption.icon service)
                       ];
                       elt "span" [("className", styles "serviceLabel")] [
                         Text (ServiceOption.label service)
                       ]
                     ])
                  SERVICE_OPTIONS
              ++ [
               El "button" None
                  [("className", styles "estimateBtn");
                   ("aria-label", Str "Get estimate for delivery")]
                  (Some handleGetEstimate) [
                 elt "span" [("className", styles "btnText")] [Text "Get an Estimate →"];
                 elt "span" [("className", styles "btnSubtext")] [Text "(takes ~2 mins)"]
               ]
             ])
         ]
       ]
     ]).

End Hero.

(** ** src/components/home/Services.tsx *)

Module Services.

Definition styles : string -> AttrVal := Css "./Services.module.css".

Definition SERVICES : list Service.t := [
  {| Service.id := "two-wheeler";
     Service.title := "2 Wheeler";
     Service.description := "Send packages up to 20kg anytime, anywhere in the city.";
     Service.icon := "🏍️" |};
  {| Service.id := "trucks";
     Service.title := "Trucks";
     Service.description := "Rent Tata Ace, 8ft Pickup, and more for goods movement.";
     Service.icon := "🚚" |};
  {| Service.id := "packers-movers";
     Service.title := "Packers & Movers";
     Service.description := "Shift your house or office with our safe and reliable services.";
     Service.icon := "📦" |};
  {| Service.id := "enterprise";
     Service.title := "Enterprise";
     Service.description := "Logistics solutions for businesses of all sizes.";
     Service.icon := "🏢" |}
].

(** [(service) => <div key={service.id} ...>], the callback of
    [SERVICES.map]. *)
Definition service_card (service : Service.t) : Node :=
  El "div" (Some (Service.id service)) [("className", styles "card")] None [
    elt "div" [("className", styles "iconPlaceholder"); ("aria-hidden", Str "true")] [
      Text (Service.icon service)
    ];
    elt "h3" [("className", styles "cardTitle")] [Text (Service.title service)];
    elt "p" [("className", styles "cardDesc")] [Text (Service.description service)]
  ].

(** Services - Display of available logistics services with descriptions. *)
Definition Services : Eff Node :=
  ret
    (elt "section" [("className", styles "section")] [
       elt "div" [("className", Str "container")] [
         elt "h2" [("className", styles "title")] [Text "Services We Offer"];
         elt "div" [("className", styles "grid")]
           (map (fun service =>
                   El "div" (Some (Service.id service)) [("className", styles "card")] None [
                     elt "div" [("className", styles "iconPlaceholder");
                                ("aria-hidden", Str "true")] [
                       Text (Service.icon service)
                     ];
                     elt "h3" [("className", styles "cardTitle")] [Text (Service.title service)];
                     elt "p" [("className", styles "cardDesc")] [Text (Service.description service)]
                   ])
                SERVICES)
       ]
     ]).

End Services.

(** ** src/components/home/Features.tsx *)

Module Features.

Definition styles : string -> AttrVal := Css "./Features.module.css".

Definition FEATURES : list Feature.t := [
  {| Feature.id := "on-time-delivery";
     Feature.icon := "⏱️";
     Feature.title := "On-Time Delivery";
     Feature.description :=
       "Reliable service that ensures your goods reach their destination on time, every time." |};
  {| Feature.id := "real-time-tracking";
     Feature.icon := "📍";
     Feature.title := "Real-time Tracking";
     Feature.description :=
       "Track your goods in real-time and stay updated with the location of your package." |};
  {| Feature.id := "economical-pricing";
     Feature.icon := "💰";
     Feature.title := "Economical Pricing";
     Feature.description :=
       "Get the best rates in the market with transparent pricing and no hidden charges." |}
].

(** [(feature) => <div key={feature.id} ...>], the callback of
    [FEATURES.map]. *)
Definition feature_item (feature : Feature.t) : Node :=
  El "div" (Some (Feature.id feature)) [("className", styles "feature")] None [
    elt "div" [("className", styles "icon"); ("aria-hidden", Str "true")] [
      Text (Feature.icon feature)
    ];
    elt "h3" [("className", styles "featureTitle")] [Text (Feature.title feature)];
    elt "p" [("className", styles "featureText")] [Text (Feature.description feature)]
  ].

(** Features - Highlight key differentiators and benefits of the Porter
    service. *)
Definition Features : Eff Node :=
  ret
    (elt "section" [("className", styles "section")] [
       elt "div" [("className", Str "container")] [
         elt "h2" [("className", styles "title")] [Text "Why Choose Porter?"];
         elt "div" [("className", styles "grid")]
           (map (fun feature =>
                   El "div" (Some (Feature.id feature)) [("className", styles "feature")] None [
                     elt "div" [("className", styles "icon"); ("aria-hidden", Str "true")] [
                       Text (Feature.icon feature)
                     ];
                     elt "h3" [("className", styles "featureTitle")] [Text (Feature.title feature)];
                     elt "p" [("className", styles "featureText")]
                       [Text (Feature.description feature)]
                   ])
                FEATURES)
       ]
     ]).

End Features.

(** ** src/components/home/Testimonials.tsx *)

Module Testimonials.

Definition styles : string -> AttrVal := Css "./Testimonials.module.css".

Definition TESTIMONIALS : list Testimonial.t := [
  {| Testimonial.id := "testimonial-1";
     Testimonial.quote :=
       "Porter has completely transformed how we manage our logistics. The real-time tracking is a game changer for our business.";
     Testimonial.name := "Rajesh Kumar";
     Testimonial.role := "Business Owner";
     Testimonial.avatar := "RK" |};
  {| Testimonial.id := "testimonial-2";
     Testimonial.quote :=
       "Excellent service! The driver was polite and helpful. I moved my entire house with Porter and it was hassle-free.";
     Testimonial.name := "Priya Singh";
     Testimonial.role := "Home Maker";
     Testimonial.avatar := "PS" |};
  {| Testimonial.id := "testimonial-3";
     Testimonial.quote :=
       "Affordable and reliable. I use Porter for all my ad-hoc delivery needs. Highly recommended.";
     Testimonial.name := "Amit Patel";
     Testimonial.role := "Freelancer";
     Testimonial.avatar := "AP" |}
].

(** [(testimonial) => <div key={testimonial.id} ...>], the callback of
    [TESTIMONIALS.map]. *)
Definition testimonial_card (testimonial : Testimonial.t) : Node :=
  El "div" (Some (Testimonial.id testimonial)) [("className", styles "card")] None [
    elt "p" [("className", styles "quote")] [
      Text quot; Text (Testimonial.quote testimonial); Text quot
    ];
    elt "div" [("className", styles "author")] [
      elt "div" [("className", styles "avatar");
                 ("title", Str (Testimonial.name testimonial ++ " - "
                                ++ Testimonial.role testimonial));
                 ("aria-label", Str (Testimonial.name testimonial))] [
        Text (Testimonial.avatar testimonial)
      ];
      elt "div" [("className", styles "authorInfo")] [
        elt "span" [("className", styles "name")] [Text (Testimonial.name testimonial)];
        elt "span" [("className", styles "role")] [Text (Testimonial.role testimonial)]
      ]
    ]
  ].

(** Testimonials - Customer testimonials section showcasing user
    satisfaction. *)
Definition Testimonials : Eff Node :=
  ret
    (elt "section" [("className", styles "section")] [
       elt "div" [("className", Str "container")] [
         elt "h2" [("className", styles "title")] [Text "What our customers say"];
         elt "div" [("className", styles "grid")]
           (map (fun testimonial =>
                   El "div" (Some (Testimonial.id testimonial))
                      [("className", styles "card")] None [
                     elt "p" [("className", styles "quote")] [
                       Text quot; Text (Testimonial.quote testimonial); Text quot
                     ];
                     elt "div" [("className", styles "author")] [
                       elt "div" [("className", styles "avatar");
                                  ("title", Str (Testimonial.name testimonial ++ " - "
                                                 ++ Testimonial.role testimonial));
                                  ("aria-label", Str (Testimonial.name testimonial))] [
                         Text (Testimonial.avatar testimonial)
                       ];
                       elt "div" [("className", styles "authorInfo")] [
                         elt "span" [("className", styles "name")]
                           [Text (Testimonial.name testimonial)];
                         elt "span" [("className", styles "role")]
                           [Text (Testimonial.role testimonial)]
                       ]
                     ]
                   ])
                TESTIMONIALS)
       ]
     ]).

End Testimonials.

(** ** src/components/layout/Footer.tsx *)

Module Footer.

Definition styles : string -> AttrVal := Css "./Footer.module.css".

Definition FOOTER_COLUMNS : list FooterColumn.t := [
  {| FooterColumn.title := "Company";
     FooterColumn.links := [
       {| FooterLink.label := "About Us"; FooterLink.href := "/about" |};
       {| FooterLink.label := "Offers"; FooterLink.href := "/offers" |};
       {| FooterLink.label := "Careers"; FooterLink.href := "/careers" |};
       {| FooterLink.label := "Blog"; FooterLink.href := "/blog" |}
     ] |};
  {| FooterColumn.title := "Services";
     FooterColumn.links := [
       {| FooterLink.label := "City Tempo"; FooterLink.href := "/services/city-tempo" |};
       {| FooterLink.label := "Packers & Movers"; FooterLink.href := "/services/packers-movers" |};
       {| FooterLink.label := "Driver Partners"; FooterLink.href := "/partners" |};
       {| FooterLink.label := "Enterprise"; FooterLink.href := "/enterprise" |}
     ] |};
  {| FooterColumn.title := "Support";
     FooterColumn.links := [
       {| FooterLink.label := "Help Center"; FooterLink.href := "/help" |};
       {| FooterLink.label := "Contact Us"; FooterLink.href := "/contact" |};
       {| FooterLink.label := "Privacy Policy"; FooterLink.href := "/privacy" |};
       {| FooterLink.label := "Terms of Service"; FooterLink.href := "/terms" |}
     ] |};
  {| FooterColumn.title := "Download App";
     FooterColumn.links := [
       {| FooterLink.label := "Android"; FooterLink.href := "https://play.google.com/store" |};
       {| FooterLink.label := "iOS"; FooterLink.href := "https://apps.apple.com" |}
     ] |}
].

Definition SOCIAL_LINKS : list SocialLink.t := [
  {| SocialLink.icon := "F"; SocialLink.label := "Facebook"; SocialLink.href := "#" |};
  {| SocialLink.icon := "T"; SocialLink.label := "Twitter"; SocialLink.href := "#" |};
  {| SocialLink.icon := "I"; SocialLink.label := "Instagram"; SocialLink.href := "#" |};
  {| SocialLink.icon := "L"; SocialLink.label := "LinkedIn"; SocialLink.href := "#" |}
].

(** [(link) => <a key={link.href} ...>], the callback of [column.links.map]. *)
Definition column_link (link : FooterLink.t) : Node :=
  El "a" (Some (FooterLink.href link))
     [("href", Str (FooterLink.href link)); ("className", styles "link")]
     None
     [Text (FooterLink.label link)].

(** [(column) => <div key={column.title}>...], the callback of
    [FOOTER_COLUMNS.map]. *)
Definition footer_column (column : FooterColumn.t) : Node :=
  El "div" (Some (FooterColumn.title column)) [] None [
    elt "h4" [("className", styles "columnTitle")] [Text (FooterColumn.title column)];
    elt "nav" [("className", styles "linkList");
               ("aria-label", Str (FooterColumn.title column ++ " links"))]
      (map column_link (FooterColumn.links column))
  ].

(** [(social) => <a key={social.label} ...>], the callback of
    [SOCIAL_LINKS.map]. *)
Definition social_link (social : SocialLink.t) : Node :=
  El "a" (Some (SocialLink.label social))
     [("href", Str (SocialLink.href social));
      ("className", styles "socialIcon");
      ("aria-label", Str (SocialLink.label social))]
     None
     [Text (SocialLink.icon social)].

(** [const CURRENT_YEAR = new Date().getFullYear();]: the initialiser, run
    once when the module is imported. *)
Definition init_CURRENT_YEAR : Eff Z := Date_getFullYear.

Section Component.

(** The value the module-level constant got at import. *)
Variable CURRENT_YEAR : Z.

(** Footer - Application footer with company information, navigation links,
    and social media. *)
Definition Footer : Eff Node :=
  ret
    (elt "footer" [("className", styles "footer")] [
       elt "div" [("className", Str "container")] [
         elt "div" [("className", styles "grid")]
           (map (fun column =>
                   El "div" (Some (FooterColumn.title column)) [] None [
                     elt "h4" [("className", styles "columnTitle")]
                       [Text (FooterColumn.title column)];
                     elt "nav" [("className", styles "linkList");
                                ("aria-label", Str (FooterColumn.title column ++ " links"))]
                       (map (fun link =>
                               El "a" (Some (FooterLink.href link))
                                  [("href", Str (FooterLink.href link));
                                   ("className", styles "link")]
                                  None
                                  [Text (FooterLink.label link)])
                            (FooterColumn.links column))
                   ])
                FOOTER_COLUMNS);

         elt "div" [("className", styles "bottom")] [
           elt "p" [] [Text "© "; Num CURRENT_YEAR; Text " Porter. All rights reserved."];
           elt "div" [("className", styles "socials");
                      ("aria-label", Str "Social media links")]
             (map (fun social =>
                     El "a" (Some (SocialLink.label social))
                        [("href", Str (SocialLink.href social));
                         ("className", styles "socialIcon");
                         ("aria-label", Str (SocialLink.label social))]
                        None
                        [Text (SocialLink.icon social)])
                  SOCIAL_LINKS)
         ]
       ]
     ]).

End Component.

End Footer.

(** ** src/app/page.tsx and src/app/layout.tsx *)

(** What importing the modules of the page leaves behind: the values of the
    module-level constants that are computed rather than written down. Of the
    modules page.tsx imports only Footer.tsx has one. *)
Record Loaded : Type := mkLoaded {
  Footer_CURRENT_YEAR : Z
}.

Definition import_modules : Eff Loaded :=
  year <- Footer.init_CURRENT_YEAR ;;
  ret (mkLoaded year).

(** Home page - composes header, hero, services, features, testimonials and
    footer. React calls the six components in the order of the children. *)
Definition Home (m : Loaded) : Eff Node :=
  header <- Header.Header ;;
  hero <- Hero.Hero ;;
  services <- Services.Services ;;
  features <- Features.Features ;;
  testimonials <- Testimonials.Testimonials ;;
  footer <- Footer.Footer (Footer_CURRENT_YEAR m) ;;
  ret (elt "main" [] [header; hero; services; features; testimonials; footer]).

(** [export const metadata: Metadata] of layout.tsx. *)
Record Metadata : Type := mkMetadata {
  metadata_title : string;
  metadata_description : string
}.

Definition metadata : Metadata := {|
  metadata_title := "Porter | Logistics Simplified";
  metadata_description :=
    "India's Largest Marketplace for Intra-City Logistics. Download the App for On-Demand Truck/Bike Booking."
|}.

(** [const inter = Inter({ subsets: ['latin'] });] *)
Definition inter_className : AttrVal := FontClass "Inter".

(** RootLayout - Root layout wrapper for the entire application. *)
Definition RootLayout (children : Node) : Eff Node :=
  ret
    (elt "html" [("lang", Str "en")] [
       elt "body" [("className", inter_className)] [children]
     ]).

(** One execution of the program up to its first page: the modules are
    imported, then the page is rendered inside the root layout. *)
Definition first_page : Eff Node :=
  m <- import_modules ;;
  page <- Home m ;;
  RootLayout page.

(** ** Reading a markup tree *)

Definition tag_of (n : Node) : option string :=
  match n with El tag _ _ _ _ => Some tag | _ => None end.

Definition key_of (n : Node) : option string :=
  match n with El _ key _ _ _ => key | _ => None end.

Definition props_of (n : Node) : list (string * AttrVal) :=
  match n with El _ _ props _ _ => props | _ => [] end.

Definition onClick_of (n : Node) : option (Eff unit) :=
  match n with El _ _ _ onClick _ => onClick | _ => None end.

Definition children_of (n : Node) : list Node :=
  match n with El _ _ _ _ children => children | _ => [] end.

Fixpoint lookup (name : string) (props : list (string * AttrVal)) : option AttrVal :=
  match props with
  | [] => None
  | (k, v) :: rest => if String.eqb k name then Some v else lookup name rest
  end.

(** The value of the prop [name] of an element, if it has one. *)
Definition prop (name : string) (n : Node) : option AttrVal :=
  lookup name (props_of n).

Fixpoint AttrVal_eqb (a b : AttrVal) : bool :=
  match a, b with
  | Str s, Str s' => String.eqb s s'
  | Css f k, Css f' k' => String.eqb f f' && String.eqb k k'
  | FontClass f, FontClass f' => String.eqb f f'
  | Cat x y, Cat x' y' => AttrVal_eqb x x' && AttrVal_eqb y y'
  | _, _ => false
  end.

Definition is_some {A : Type} (o : option A) : bool :=
  match o with Some _ => true | None => false end.

Definition has_tag (tag : string) (n : Node) : bool :=
  match tag_of n with Some t => String.eqb t tag | None => false end.

Definition has_prop (name : string) (v : AttrVal) (n : Node) : bool :=
  match prop name n with Some v' => AttrVal_eqb v' v | None => false end.

Definition has_class (c : AttrVal) (n : Node) : bool := has_prop "className" c n.

Definition has_key (n : Node) : bool := is_some (key_of n).

Definition has_handler (n : Node) : bool := is_some (onClick_of n).

(** The node and everything below it, in document order. *)
Fixpoint subtrees (n : Node) : list Node :=
  n :: match n with
       | El _ _ _ _ children => flat_map subtrees children
       | _ => []
       end.

(** The same, each node with the chain of its ancestors, nearest first. *)
Fixpoint with_ancestors (above : list Node) (n : Node) {struct n} : list (list Node * Node) :=
  (above, n) :: match n with
                | El _ _ _ _ children => flat_map (with_ancestors (n :: above)) children
                | _ => []
                end.

Definition select (p : Node -> bool) (n : Node) : list Node :=
  filter p (subtrees n).

(** A number child is shown in decimal, as React does. *)
Definition string_of_Z (z : Z) : string := NilZero.string_of_int (Z.to_int z).

(** The text a reader sees below a node (the DOM's [textContent]). *)
Fixpoint textContent (n : Node) : string :=
  match n with
  | Text s => s
  | Num z => string_of_Z z
  | El _ _ _ _ children => String.concat "" (map textContent children)
  end.

(** The nodes an iteration ([list.map(entry => <... key={...}>)]) produced:
    in these sources a [key] is given there and nowhere else. *)
Definition keyed_nodes (n : Node) : list Node := select has_key n.

(** The numbers placed in the tree. *)
Definition numbers (n : Node) : list Z :=
  flat_map (fun x => match x with Num z => [z] | _ => [] end) (subtrees n).

(** The keys of the children of a node that have one: what React requires to
    be distinct among siblings. *)
Definition sibling_keys (n : Node) : list string :=
  flat_map (fun c => match key_of c with Some k => [k] | None => [] end) (children_of n).

Fixpoint mem (s : string) (l : list string) : bool :=
  match l with
  | [] => false
  | x :: rest => String.eqb x s || mem s rest
  end.

Fixpoint distinct (l : list string) : bool :=
  match l with
  | [] => true
  | x :: rest => negb (mem x rest) && distinct rest
  end.

(** Accessibility classes of elements. A link or a button is interactive; an
    element that is not, and whose whole content is pictographs (text with no
    ASCII character, such as an emoji or an arrow head), is decorative. *)
Definition interactive (n : Node) : bool :=
  has_tag "a" n || has_tag "Link" n || has_tag "button" n.

Definition is_link (n : Node) : bool := has_tag "a" n || has_tag "Link" n.

Fixpoint no_ascii (s : string) : bool :=
  match s with
  | EmptyString => true
  | String c rest => (128 <=? nat_of_ascii c)%nat && no_ascii rest
  end.

Definition pictograph (n : Node) : bool :=
  match n with
  | Text (String c rest) => no_ascii (String c rest)
  | _ => false
  end.

Definition decorative (n : Node) : bool :=
  negb (interactive n)
  && match children_of n with
     | [] => false
     | c :: cs => forallb pictograph (c :: cs)
     end.

Definition labelled (n : Node) : bool := is_some (prop "aria-label" n).

Definition hidden (n : Node) : bool := has_prop "aria-hidden" (Str "true") n.

(** A link in a navigation landmark: its parent is a labelled [nav] and it
    shows a text of its own. *)
Definition in_labelled_nav (above : list Node) (n : Node) : bool :=
  match above with
  | parent :: _ => has_tag "nav" parent && labelled parent
                   && negb (String.eqb (textContent n) "")
  | [] => false
  end.

(** ** One run of the program *)

(** What happens after the modules are imported: React renders the page, the
    visitor clicks the button of the hero, the clock moves on. *)
Inductive Event : Type :=
| Render
| Click
| Tick (year : Z).

(** The pages a run shows, in order, and the world it leaves. *)
Fixpoint run (m : Loaded) (events : list Event) (w : World) : list Node * World :=
  match events with
  | [] => ([], w)
  | Render :: rest =>
      let (page, w1) := Home m w in
      let (pages, w2) := run m rest w1 in
      (page :: pages, w2)
  | Click :: rest => run m rest (after Hero.handleGetEstimate w)
  | Tick year :: rest => run m rest (mkWorld year (console w) (location w))
  end.

(** Rendering a component [n] times in a row. *)
Fixpoint render_times (c : Eff Node) (n : nat) : Eff (list Node) :=
  match n with
  | O => ret []
  | S k => page <- c ;; pages <- render_times c k ;; ret (page :: pages)
  end.

(** ** next/link *)

(** [Link] is not code of the repository: Header.tsx imports it from
    next/link and the components return it as an element. What the library
    renders for it is modelled here from its behaviour: an anchor with the
    props, the key and the children of the element, to which the library
    attaches handlers of its own. Of these the click handler is kept, in the
    [onClick] field a node has: it runs the handler the element was given,
    if any, and then goes to the href without loading a document. *)
Module Next.

Definition navigate (href : string) : Eff unit :=
  fun w => (tt, mkWorld (fullYear w) (console w) href).

Definition href_of (props : list (string * AttrVal)) : string :=
  match lookup "href" props with
  | Some (Str href) => href
  | _ => ""
  end.

Definition link_onClick (props : list (string * AttrVal)) (given : option (Eff unit))
  : Eff unit :=
  match given with
  | Some handler => _ <- handler ;; navigate (href_of props)
  | None => navigate (href_of props)
  end.

(** The tree with every [Link] element rendered by the library. *)
Fixpoint render_links (n : Node) : Node :=
  match n with
  | El tag key props onClick children =>
      if String.eqb tag "Link"
      then El "a" key props (Some (link_onClick props onClick)) (map render_links children)
      else El tag key props onClick (map render_links children)
  | _ => n
  end.

End Next.

(** No link of a page carries a handler, and one element of it carries
    one. *)
Definition one_handler_and_none_on_links (page : Node) : Prop :=
  Forall (fun n => is_link n = true -> onClick_of n = None) (subtrees page)
  /\ List.length (select has_handler page) = 1%nat.

(** The visitor clicks the button of the hero [n] times. *)
Fixpoint clicks (n : nat) : Eff unit :=
  match n with
  | O => ret tt
  | S k => _ <- Hero.handleGetEstimate ;; clicks k
  end.

(** ** What the properties are stated with *)

(** A computation that leaves the world as it found it. *)
Definition pure {A : Type} (c : Eff A) : Prop := forall w, after c w = w.

(** A computation whose result does not depend on the world it runs in. *)
Definition constant {A : Type} (c : Eff A) : Prop :=
  forall w w', result c w = result c w'.

(** How a node shows an entry of a content list. *)
Definition shows_nav_link (link : NavLink.t) (n : Node) : Prop :=
  tag_of n = Some "Link"
  /\ key_of n = Some (NavLink.href link)
  /\ prop "href" n = Some (Str (NavLink.href link))
  /\ textContent n = NavLink.label link.

Definition shows_service_option (service : ServiceOption.t) (n : Node) : Prop :=
  tag_of n = Some "div"
  /\ key_of n = Some (ServiceOption.label service)
  /\ map textContent (children_of n)
     = [ServiceOption.icon service; ServiceOption.label service].

Definition shows_service (service : Service.t) (n : Node) : Prop :=
  tag_of n = Some "div"
  /\ key_of n = Some (Service.id service)
  /\ map textContent (children_of n)
     = [Service.icon service; Service.title service; Service.description service].

Definition shows_feature (feature : Feature.t) (n : Node) : Prop :=
  tag_of n = Some "div"
  /\ key_of n = Some (Feature.id feature)
  /\ map textContent (children_of n)
     = [Feature.icon feature; Feature.title feature; Feature.description feature].

Definition shows_testimonial (testimonial : Testimonial.t) (n : Node) : Prop :=
  tag_of n = Some "div"
  /\ key_of n = Some (Testimonial.id testimonial)
  /\ map textContent (children_of n)
     = [(quot ++ Testimonial.quote testimonial ++ quot)%string;
        (Testimonial.avatar testimonial ++ Testimonial.name testimonial
         ++ Testimonial.role testimonial)%string].

Definition shows_footer_link (link : FooterLink.t) (n : Node) : Prop :=
  tag_of n = Some "a"
  /\ key_of n = Some (FooterLink.href link)
  /\ prop "href" n = Some (Str (FooterLink.href link))
  /\ textContent n = FooterLink.label link.

(** A column node: its heading, then a nav whose children are one link node
    per link of the column, which are all the keyed nodes below it. *)
Definition shows_footer_column (column : FooterColumn.t) (n : Node) : Prop :=
  tag_of n = Some "div"
  /\ key_of n = Some (FooterColumn.title column)
  /\ map tag_of (children_of n) = [Some "h4"; Some "nav"]
  /\ map textContent (firstn 1 (children_of n)) = [FooterColumn.title column]
  /\ exists links,
       map children_of (skipn 1 (children_of n)) = [links]
       /\ keyed_nodes n = n :: links
       /\ Forall2 shows_footer_link (FooterColumn.links column) links.

Definition shows_social_link (social : SocialLink.t) (n : Node) : Prop :=
  tag_of n = Some "a"
  /\ key_of n = Some (SocialLink.label social)
  /\ prop "href" n = Some (Str (SocialLink.href social))
  /\ prop "aria-label" n = Some (Str (SocialLink.label social))
  /\ textContent n = SocialLink.icon social.

(** The output of two executions of the program never differs. *)
Definition same_page_in_every_execution : Prop :=
  forall w1 w2, result first_page w1 = result first_page w2.

(** Every interactive element carries an [aria-label]. *)
Definition every_interactive_labelled (page : Node) : Prop :=
  Forall (fun n => interactive n = true -> labelled n = true) (subtrees page).

(** Every decorative element carries [aria-hidden="true"]. *)
Definition every_decorative_hidden (page : Node) : Prop :=
  Forall (fun n => decorative n = true -> hidden n = true) (subtrees page).

(** Every link carries an [aria-label] or stands, with a text of its own, in
    a labelled [nav]. *)
Definition every_link_named (page : Node) : Prop :=
  Forall (fun an => is_link (snd an) = true ->
                    labelled (snd an) = true \/ in_labelled_nav (fst an) (snd an) = true)
         (with_ancestors [] page).

(** Two executions of the program, a year apart. *)
Definition world_2025 : World := mkWorld 2025 [] "/".
Definition world_2026 : World := mkWorld 2026 [] "/".

(** ** General facts *)

Section Computations.

Variables A B : Type.

Lemma pure_ret (a : A) : pure (ret a).
Proof. intro w. reflexivity. Qed.

Lemma constant_ret (a : A) : constant (ret a).
Proof. intros w w'. reflexivity. Qed.

Lemma after_bind (c : Eff A) (k : A -> Eff B) (w : World) :
  after (bind c k) w = after (k (result c w)) (after c w).
Proof. unfold after, result, bind. destruct (c w) as [a w1]. reflexivity. Qed.

Lemma result_bind (c : Eff A) (k : A -> Eff B) (w : World) :
  result (bind c k) w = result (k (result c w)) (after c w).
Proof. unfold after, result, bind. destruct (c w) as [a w1]. reflexivity. Qed.

Lemma pure_bind (c : Eff A) (k : A -> Eff B) :
  pure c -> (forall a, pure (k a)) -> pure (bind c k).
Proof.
  intros Hc Hk w. rewrite after_bind, Hc. apply Hk.
Qed.

Lemma constant_bind (c : Eff A) (k : A -> Eff B) :
  constant c -> (forall a, constant (k a)) -> constant (bind c k).
Proof.
  intros Hc Hk w w'. rewrite !result_bind.
  rewrite (Hc w w'). apply Hk.
Qed.

End Computations.

Create HintDb render.
#[local] Hint Resolve pure_ret pure_bind constant_ret constant_bind : render.

Section Lists.

Lemma mem_In (s : string) (l : list string) : mem s l = true <-> In s l.
Proof.
  induction l as [| x l IH]; simpl.
  - split; [discriminate | tauto].
  - rewrite orb_true_iff, String.eqb_eq, IH. tauto.
Qed.

Lemma distinct_NoDup (l : list string) : distinct l = true -> NoDup l.
Proof.
  induction l as [| x l IH]; simpl; intro H.
  - constructor.
  - apply andb_true_iff in H. destruct H as [Hx Hl].
    constructor.
    + intro Hin. apply mem_In in Hin. rewrite Hin in Hx. discriminate.
    + apply IH, Hl.
Qed.

Lemma NoDup_distinct (l : list string) : NoDup l -> distinct l = true.
Proof.
  induction 1 as [| x l Hx _ IH]; simpl.
  - reflexivity.
  - rewrite IH, andb_true_r. destruct (mem x l) eqn:E; [| reflexivity].
    apply mem_In in E. contradiction.
Qed.

Variables (T U : Type) (R : T -> U -> Prop).

(** One node per entry, in the order of the entries. *)
Lemma Forall2_same_length (l : list T) (l' : list U) :
  Forall2 R l l' -> List.length l = List.length l'.
Proof. induction 1; simpl; congruence. Qed.

Lemma Forall2_nth (l : list T) (l' : list U) :
  Forall2 R l l' ->
  forall i x, nth_error l i = Some x -> exists y, nth_error l' i = Some y /\ R x y.
Proof.
  induction 1 as [| x0 y0 l l' Hxy _ IH]; intros i x Hi.
  - destruct i; discriminate.
  - destruct i as [| i]; simpl in *.
    + injection Hi as <-. eauto.
    + eauto.
Qed.

Lemma Forall_implb (p q : T -> bool) (l : list T) :
  forallb (fun n => implb (p n) (q n)) l = true ->
  Forall (fun n => p n = true -> q n = true) l.
Proof.
  intro H. apply Forall_forall. intros n Hn Hp.
  rewrite forallb_forall in H. specialize (H n Hn).
  rewrite Hp in H. exact H.
Qed.

End Lists.

(** ** Facts about markup trees *)

(** Induction on a tree, with the property at hand for every child. *)
Lemma Node_children_ind (P : Node -> Prop) :
  (forall s, P (Text s)) ->
  (forall z, P (Num z)) ->
  (forall tag key props onClick children,
      Forall P children -> P (El tag key props onClick children)) ->
  forall n, P n.
Proof.
  intros HText HNum HEl.
  fix IH 1.
  intros [s | z | tag key props onClick children].
  - apply HText.
  - apply HNum.
  - apply HEl.
    induction children as [| c cs IHcs]; constructor.
    + apply IH.
    + exact IHcs.
Qed.

(** Walking a tree with the ancestors at hand visits the nodes [subtrees]
    lists, in the same order. *)
Lemma with_ancestors_subtrees (n : Node) :
  forall above, map snd (with_ancestors above n) = subtrees n.
Proof.
  induction n as [s | z | tag key props onClick children IH] using Node_children_ind;
    intro above; cbn [with_ancestors subtrees map snd]; try reflexivity.
  f_equal.
  generalize (El tag key props onClick children :: above) as chain.
  intro chain.
  induction IH as [| c cs Hc _ IHcs]; cbn [flat_map].
  - reflexivity.
  - rewrite map_app, Hc, IHcs. reflexivity.
Qed.

(** ** Facts about the components *)

Lemma Header_pure : pure Header.Header.
Proof. unfold Header.Header. auto with render. Qed.

Lemma Hero_pure : pure Hero.Hero.
Proof. unfold Hero.Hero. auto with render. Qed.

Lemma Services_pure : pure Services.Services.
Proof. unfold Services.Services. auto with render. Qed.

Lemma Features_pure : pure Features.Features.
Proof. unfold Features.Features. auto with render. Qed.

Lemma Testimonials_pure : pure Testimonials.Testimonials.
Proof. unfold Testimonials.Testimonials. auto with render. Qed.

Lemma Footer_pure (year : Z) : pure (Footer.Footer year).
Proof. unfold Footer.Footer. auto with render. Qed.

#[local] Hint Resolve Header_pure Hero_pure Services_pure Features_pure
  Testimonials_pure Footer_pure : render.

Lemma Home_pure (m : Loaded) : pure (Home m).
Proof. unfold Home. auto 10 with render. Qed.

Lemma Home_constant (m : Loaded) : constant (Home m).
Proof.
  unfold Home.
  repeat (apply constant_bind; [apply constant_ret | intro]).
  apply constant_ret.
Qed.

(** Importing the modules only reads the clock. *)
Lemma import_modules_spec (w : World) :
  import_modules w = (mkLoaded (fullYear w), w).
Proof. reflexivity. Qed.

Lemma first_page_spec (w : World) :
  result first_page w
  = result (RootLayout (result (Home (mkLoaded (fullYear w))) w)) w.
Proof. reflexivity. Qed.

Lemma first_page_numbers (w : World) : numbers (result first_page w) = [fullYear w].
Proof. reflexivity. Qed.

Lemma handleGetEstimate_spec (w : World) :
  Hero.handleGetEstimate w
  = (tt, mkWorld (fullYear w) (console w ++ ["Get estimate clicked"]) (location w)).
Proof. reflexivity. Qed.

Lemma run_pages (m : Loaded) (events : list Event) :
  forall w, Forall (fun page => page = result (Home m) w) (fst (run m events w)).
Proof.
  induction events as [| e rest IH]; intro w.
  - constructor.
  - destruct e as [| | year]; cbn [run].
    + pose proof (Home_pure m w) as Hw. unfold after in Hw.
      unfold result. destruct (Home m w) as [page w1] eqn:E.
      cbn [snd] in Hw. subst w1.
      specialize (IH w). unfold result in IH. rewrite E in IH.
      destruct (run m rest w) as [pages w2]. cbn [fst] in *.
      constructor; [reflexivity | exact IH].
    + eapply Forall_impl; [| apply IH].
      intros page ->. apply Home_constant.
    + eapply Forall_impl; [| apply IH].
      intros page ->. apply Home_constant.
Qed.

Lemma render_times_spec (c : Eff Node) (n : nat) :
  pure c ->
  forall w, render_times c n w = (repeat (result c w) n, w).
Proof.
  intros Hc. induction n as [| k IH]; intro w; cbn [render_times repeat].
  - reflexivity.
  - unfold bind. specialize (Hc w). unfold after in Hc. unfold result.
    destruct (c w) as [page w1] eqn:E. cbn [snd fst] in *. subst w1.
    rewrite IH. unfold result, ret. rewrite E. reflexivity.
Qed.

Lemma Forall_distinct (T : Type) (f : T -> list string) (l : list T) :
  forallb (fun x => distinct (f x)) l = true -> Forall (fun x => NoDup (f x)) l.
Proof.
  intro H. apply Forall_forall. intros x Hx.
  apply distinct_NoDup. rewrite forallb_forall in H. apply H, Hx.
Qed.

Lemma Forall_implb_conv (T : Type) (p q : T -> bool) (l : list T) :
  Forall (fun n => p n = true -> q n = true) l ->
  forallb (fun n => implb (p n) (q n)) l = true.
Proof.
  induction 1 as [| n l Hn _ IH]; simpl.
  - reflexivity.
  - rewrite IH, andb_true_r.
    destruct (p n); [apply Hn; reflexivity | reflexivity].
Qed.

(** ** The properties of the page *)

(** C1: Home renders exactly six sections, Header, Hero, Services, Features,
    Testimonials and Footer, as the children of a single main element, in
    that order, at every render: whatever the modules loaded and whatever the
    world the render runs in. *)
Theorem C1_home_six_sections_in_order (m : Loaded) (w : World) :
  result (Home m) w
  = El "main" None [] None
       [result Header.Header w;
        result Hero.Hero w;
        result Services.Services w;
        result Features.Features w;
        result Testimonials.Testimonials w;
        result (Footer.Footer (Footer_CURRENT_YEAR m)) w]
  /\ List.length (children_of (result (Home m) w)) = 6%nat
  /\ map tag_of (children_of (result (Home m) w))
     = [Some "header"; Some "section"; Some "section"; Some "section";
        Some "section"; Some "footer"]
  /\ select (has_tag "main") (result (Home m) w) = [result (Home m) w].
Proof.
  assert (E : result (Home m) w
              = El "main" None [] None
                  [result Header.Header w;
                   result Hero.Hero w;
                   result Services.Services w;
                   result Features.Features w;
                   result Testimonials.Testimonials w;
                   result (Footer.Footer (Footer_CURRENT_YEAR m)) w]).
  { unfold Home.
    rewrite result_bind, Header_pure.
    rewrite result_bind, Hero_pure.
    rewrite result_bind, Services_pure.
    rewrite result_bind, Features_pure.
    rewrite result_bind, Testimonials_pure.
    rewrite result_bind, Footer_pure.
    reflexivity. }
  split; [exact E |].
  rewrite E. repeat split; reflexivity.
Qed.

(** C2: for every content list rendered by iteration (NAV_LINKS in Header,
    SERVICE_OPTIONS in Hero, SERVICES in Services, FEATURES in Features,
    TESTIMONIALS in Testimonials, FOOTER_COLUMNS with the links of each
    column and SOCIAL_LINKS in Footer) the output of the component holds
    exactly one node per entry of the list, and these nodes stand in the
    order of the entries: the children of the one container of the list are
    these nodes and nothing else (in Hero, followed by the button), and no
    other element of the output is keyed or bears the class of an item. *)
Theorem C2_one_node_per_entry_in_order (year : Z) (w : World) :
  Forall2 shows_nav_link Header.NAV_LINKS (keyed_nodes (result Header.Header w))
  /\ Forall2 shows_service_option Hero.SERVICE_OPTIONS (keyed_nodes (result Hero.Hero w))
  /\ Forall2 shows_service Services.SERVICES (keyed_nodes (result Services.Services w))
  /\ Forall2 shows_feature Features.FEATURES (keyed_nodes (result Features.Features w))
  /\ Forall2 shows_testimonial Testimonials.TESTIMONIALS
             (keyed_nodes (result Testimonials.Testimonials w))
  /\ (let footer := result (Footer.Footer year) w in
      exists columns socials,
        keyed_nodes footer = flat_map keyed_nodes columns ++ socials
        /\ flat_map children_of (select (has_class (Footer.styles "grid")) footer) = columns
        /\ flat_map children_of (select (has_class (Footer.styles "socials")) footer) = socials
        /\ Forall2 shows_footer_column Footer.FOOTER_COLUMNS columns
        /\ Forall2 shows_social_link Footer.SOCIAL_LINKS socials
        /\ map children_of (select (has_class (Footer.styles "grid")) footer) = [columns]
        /\ map children_of (select (has_class (Footer.styles "socials")) footer) = [socials]
        /\ map children_of (select (has_tag "nav") footer)
           = map (fun column => flat_map children_of (skipn 1 (children_of column))) columns
        /\ select (has_class (Footer.styles "link")) footer
           = flat_map (fun column => flat_map children_of (skipn 1 (children_of column)))
                      columns
        /\ select (has_class (Footer.styles "socialIcon")) footer = socials)
  /\ List.length (keyed_nodes (result Header.Header w)) = List.length Header.NAV_LINKS
  /\ List.length (keyed_nodes (result Hero.Hero w)) = List.length Hero.SERVICE_OPTIONS
  /\ List.length (keyed_nodes (result Services.Services w)) = List.length Services.SERVICES
  /\ List.length (keyed_nodes (result Features.Features w)) = List.length Features.FEATURES
  /\ List.length (keyed_nodes (result Testimonials.Testimonials w))
     = List.length Testimonials.TESTIMONIALS
  /\ (let header := result Header.Header w in
      map children_of (select (has_class (Header.styles "nav")) header)
      = [keyed_nodes header]
      /\ select (has_class (Header.styles "navLink")) header = keyed_nodes header)
  /\ (let hero := result Hero.Hero w in
      (exists button,
          map children_of (select (has_class (Hero.styles "servicesGrid")) hero)
          = [keyed_nodes hero ++ [button]]
          /\ tag_of button = Some "button"
          /\ key_of button = None)
      /\ select (has_class (Hero.styles "serviceOption")) hero = keyed_nodes hero)
  /\ (let services := result Services.Services w in
      map children_of (select (has_class (Services.styles "grid")) services)
      = [keyed_nodes services]
      /\ select (has_class (Services.styles "card")) services = keyed_nodes services)
  /\ (let features := result Features.Features w in
      map children_of (select (has_class (Features.styles "grid")) features)
      = [keyed_nodes features]
      /\ select (has_class (Features.styles "feature")) features = keyed_nodes features)
  /\ (let testimonials := result Testimonials.Testimonials w in
      map children_of (select (has_class (Testimonials.styles "grid")) testimonials)
      = [keyed_nodes testimonials]
      /\ select (has_class (Testimonials.styles "card")) testimonials
         = keyed_nodes testimonials).
Proof.
  assert (Hnav : Forall2 shows_nav_link Header.NAV_LINKS
                         (keyed_nodes (result Header.Header w)))
    by (repeat constructor).
  assert (Hopt : Forall2 shows_service_option Hero.SERVICE_OPTIONS
                         (keyed_nodes (result Hero.Hero w)))
    by (repeat constructor).
  assert (Hsrv : Forall2 shows_service Services.SERVICES
                         (keyed_nodes (result Services.Services w)))
    by (repeat constructor).
  assert (Hfea : Forall2 shows_feature Features.FEATURES
                         (keyed_nodes (result Features.Features w)))
    by (repeat constructor).
  assert (Htes : Forall2 shows_testimonial Testimonials.TESTIMONIALS
                         (keyed_nodes (result Testimonials.Testimonials w)))
    by (repeat constructor).
  repeat match goal with
         | |- Forall2 _ _ _ /\ _ => split; [assumption |]
         end.
  split.
  { cbv zeta. eexists. eexists.
    split; [| split; [reflexivity | split; [reflexivity |]]].
    - reflexivity.
    - split.
      + repeat (apply Forall2_cons || apply Forall2_nil);
          (repeat split; try reflexivity);
          eexists; (split; [reflexivity | split; [reflexivity | repeat constructor]]).
      + split; [repeat constructor |].
        repeat split; reflexivity. }
  do 5 (split; [symmetry; eapply Forall2_same_length; eassumption |]).
  cbv zeta.
  split; [split; reflexivity |].
  split; [split; [eexists; repeat split; reflexivity | reflexivity] |].
  repeat split; reflexivity.
Qed.

(** C3: the output of Services holds exactly the four service titles
    2 Wheeler, Trucks, Packers & Movers and Enterprise, in that order, on the
    cards keyed two-wheeler, trucks, packers-movers and enterprise, and no
    other service title. *)
Theorem C3_services_four_titles_in_order (w : World) :
  let services := result Services.Services w in
  map textContent (select (has_tag "h3") services)
  = ["2 Wheeler"; "Trucks"; "Packers & Movers"; "Enterprise"]
  /\ select (has_class (Services.styles "cardTitle")) services
     = select (has_tag "h3") services
  /\ map key_of (keyed_nodes services)
     = [Some "two-wheeler"; Some "trucks"; Some "packers-movers"; Some "enterprise"]
  /\ map (fun card => map textContent (select (has_tag "h3") card)) (keyed_nodes services)
     = [["2 Wheeler"]; ["Trucks"]; ["Packers & Movers"]; ["Enterprise"]].
Proof.
  cbv zeta. repeat split; reflexivity.
Qed.

(** C4: within every list of the content registry the values used as
    iteration keys are pairwise distinct: the ids of the services, features
    and testimonials, the hrefs of the navigation links and of the links of
    each footer column, the labels of the service options and of the social
    links, the titles of the footer columns; and in the rendered page no two
    children of one element have the same key. *)
Theorem C4_iteration_keys_distinct (m : Loaded) (w : World) :
  NoDup (map Service.id Constants.SERVICES)
  /\ NoDup (map Feature.id Constants.FEATURES)
  /\ NoDup (map Testimonial.id Constants.TESTIMONIALS)
  /\ NoDup (map NavLink.href Constants.NAV_LINKS)
  /\ Forall (fun column => NoDup (map FooterLink.href (FooterColumn.links column)))
            Constants.FOOTER_COLUMNS
  /\ NoDup (map ServiceOption.label Constants.SERVICE_OPTIONS)
  /\ NoDup (map SocialLink.label Constants.SOCIAL_LINKS)
  /\ NoDup (map FooterColumn.title Constants.FOOTER_COLUMNS)
  /\ Forall (fun n => NoDup (sibling_keys n)) (subtrees (result (Home m) w)).
Proof.
  repeat match goal with
         | |- _ /\ _ => split
         | |- NoDup _ => apply distinct_NoDup; vm_compute; reflexivity
         | |- Forall _ _ => apply Forall_distinct; vm_compute; reflexivity
         end.
Qed.


(** C10: every social-media link the Footer renders has href #: the four
    anchors, for Facebook, Twitter, Instagram and LinkedIn in that order,
    are placeholders with no handler of their own. *)
Theorem C10_social_links_are_placeholders (year : Z) (w : World) :
  let footer := result (Footer.Footer year) w in
  let anchors := flat_map children_of (select (has_class (Footer.styles "socials")) footer) in
  Forall2 shows_social_link Footer.SOCIAL_LINKS anchors
  /\ map (prop "aria-label") anchors
     = [Some (Str "Facebook"); Some (Str "Twitter"); Some (Str "Instagram");
        Some (Str "LinkedIn")]
  /\ Forall (fun a => tag_of a = Some "a"
                      /\ prop "href" a = Some (Str "#")
                      /\ onClick_of a = None) anchors
  /\ Forall (fun social => SocialLink.href social = "#") Footer.SOCIAL_LINKS.
Proof.
  cbv zeta. repeat split; repeat constructor.
Qed.

(** C5, as the specification states it, fails: the page of an execution
    started in 2025 differs from the page of one started in 2026. *)
Lemma C5_pages_differ_across_years :
  ~ same_page_in_every_execution.
Proof.
  intro H. specialize (H world_2025 world_2026).
  apply (f_equal numbers) in H. rewrite !first_page_numbers in H.
  discriminate H.
Qed.

(** C5, amended: the output of Header, Hero, Services, Features and
    Testimonials is fixed by the literal constants alone; the output of
    Footer is fixed by them and by CURRENT_YEAR, the calendar year read from
    the clock once, when the module is imported, which is the only number in
    the page and stands in the copyright line; so two executions produce the
    same page exactly when they start in the same calendar year. *)
Theorem C5_page_fixed_by_literals_and_year :
  constant Header.Header
  /\ constant Hero.Hero
  /\ constant Services.Services
  /\ constant Features.Features
  /\ constant Testimonials.Testimonials
  /\ (forall year, constant (Footer.Footer year))
  /\ (forall w, result import_modules w = mkLoaded (fullYear w))
  /\ (forall w, numbers (result first_page w) = [fullYear w])
  /\ (forall w, map textContent (select (has_tag "p") (result (Footer.Footer (fullYear w)) w))
                = [("© " ++ string_of_Z (fullYear w) ++ " Porter. All rights reserved.")%string])
  /\ (forall w1 w2,
        result first_page w1 = result first_page w2 <-> fullYear w1 = fullYear w2).
Proof.
  repeat match goal with
         | |- constant _ /\ _ => split; [apply constant_ret |]
         end.
  split; [intro; apply constant_ret |].
  split; [intro w; unfold result; rewrite import_modules_spec; reflexivity |].
  split; [exact first_page_numbers |].
  split; [reflexivity |].
  intros w1 w2. split; intro H.
  - apply (f_equal numbers) in H. rewrite !first_page_numbers in H.
    injection H as H. exact H.
  - rewrite !first_page_spec, H.
    unfold RootLayout. rewrite (Home_constant _ w1 w2). reflexivity.
Qed.

(** C6: within one run of the program rendering is idempotent: each
    component, and the whole page, yields the same output in whatever world
    it is rendered; rendering the page n times in a row yields n copies of
    one output and leaves the world as it was, and so for each component;
    and all the pages a run
    shows, whatever clicks and clock changes happen between its renders, are
    the same page. *)
Theorem C6_rendering_idempotent (m : Loaded) :
  constant Header.Header
  /\ constant Hero.Hero
  /\ constant Services.Services
  /\ constant Features.Features
  /\ constant Testimonials.Testimonials
  /\ constant (Footer.Footer (Footer_CURRENT_YEAR m))
  /\ constant (Home m)
  /\ Forall (fun c => forall n w, render_times c n w = (repeat (result c w) n, w))
            [Header.Header; Hero.Hero; Services.Services; Features.Features;
             Testimonials.Testimonials; Footer.Footer (Footer_CURRENT_YEAR m); Home m]
  /\ (forall events w,
        Forall (fun page => page = result (Home m) w) (fst (run m events w))).
Proof.
  repeat match goal with
         | |- constant (Home _) /\ _ => split; [apply Home_constant |]
         | |- constant _ /\ _ => split; [apply constant_ret |]
         end.
  split.
  - repeat (apply Forall_cons || apply Forall_nil);
      intros n w; apply render_times_spec;
      first [apply Home_pure | apply pure_ret].
  - intros events w. apply run_pages.
Qed.

(** C7, as the specification states it, fails on the rendered page: the
    four links of the header, the logo and the three navigation links, are
    Link elements of next/link, and the anchors the library renders for them
    carry a handler, whose click goes to the href of the link. *)
Lemma C7_header_links_carry_handlers :
  map (fun n => (tag_of n, prop "href" n))
      (select (fun n => is_link n && has_handler n)
              (Next.render_links (result (Home (mkLoaded 2025)) world_2025)))
  = [(Some "a", Some (Str "/"));
     (Some "a", Some (Str "/enterprise"));
     (Some "a", Some (Str "/partners"));
     (Some "a", Some (Str "/support"))]
  /\ map (fun n => match onClick_of n with
                   | Some handler => location (after handler world_2025)
                   | None => location world_2025
                   end)
         (select (has_class (Header.styles "navLink"))
                 (Next.render_links (result (Home (mkLoaded 2025)) world_2025)))
     = ["/enterprise"; "/partners"; "/support"]
  /\ ~ one_handler_and_none_on_links
        (Next.render_links (result (Home (mkLoaded 2025)) world_2025)).
Proof.
  split; [reflexivity |].
  split; [reflexivity |].
  intros [_ H]. vm_compute in H. discriminate H.
Qed.

(** C7, amended: rendering a component has no side effect; in the tree the
    components return the only handler is the one Hero gives its Get an
    Estimate button, which on a click logs one line and changes neither the
    location nor anything else, and no other button or link is given a
    handler by the components; the four links of the header are Link
    elements of next/link, which attaches handlers of its own to the anchors
    it renders, so that in the rendered page the elements with a handler are
    these four anchors and the button of the hero, and the two buttons of
    the header and the eighteen anchors of the footer carry none. *)
Theorem C7_handlers_of_components_and_links (m : Loaded) (w : World) :
  let page := result (Home m) w in
  let rendered := Next.render_links page in
  (pure Header.Header /\ pure Hero.Hero /\ pure Services.Services
   /\ pure Features.Features /\ pure Testimonials.Testimonials
   /\ pure (Footer.Footer (Footer_CURRENT_YEAR m)) /\ pure (Home m))
  /\ (exists button,
        select has_handler page = [button]
        /\ select has_handler (result Hero.Hero w) = [button]
        /\ tag_of button = Some "button"
        /\ prop "aria-label" button = Some (Str "Get estimate for delivery")
        /\ textContent button = "Get an Estimate →(takes ~2 mins)"
        /\ onClick_of button = Some Hero.handleGetEstimate
        /\ select (fun n => has_handler n && negb (is_link n)) rendered = [button])
  /\ (forall w0,
        location (after Hero.handleGetEstimate w0) = location w0
        /\ fullYear (after Hero.handleGetEstimate w0) = fullYear w0
        /\ console (after Hero.handleGetEstimate w0)
           = console w0 ++ ["Get estimate clicked"]
        /\ result (Home m) (after Hero.handleGetEstimate w0) = result (Home m) w0)
  /\ List.length (select has_handler (result first_page w)) = 1%nat
  /\ List.length (select interactive page) = 25%nat
  /\ List.length (select (fun n => interactive n && negb (has_handler n)) page) = 24%nat
  /\ map onClick_of (select (has_tag "button") (result Header.Header w)) = [None; None]
  /\ Forall (fun n => is_link n = true -> onClick_of n = None) (subtrees page)
  /\ map (fun n => (tag_of n, prop "href" n, prop "aria-label" n))
         (select has_handler rendered)
     = [(Some "a", Some (Str "/"), Some (Str "Porter Home"));
        (Some "a", Some (Str "/enterprise"), None);
        (Some "a", Some (Str "/partners"), None);
        (Some "a", Some (Str "/support"), None);
        (Some "button", None, Some (Str "Get estimate for delivery"))]
  /\ select has_handler rendered
     = select has_handler (Next.render_links (result Header.Header w))
       ++ select has_handler (result Hero.Hero w)
  /\ select (has_tag "Link") page = select (has_tag "Link") (result Header.Header w)
  /\ List.length (select (has_tag "Link") page) = 4%nat
  /\ select (has_tag "Link") rendered = []
  /\ List.length (select interactive rendered) = 25%nat
  /\ List.length (select (fun n => interactive n && negb (has_handler n)) rendered) = 20%nat
  /\ map onClick_of (select (has_tag "button") (Next.render_links (result Header.Header w)))
     = [None; None]
  /\ Forall (fun n => has_handler n = false)
            (subtrees (Next.render_links (result (Footer.Footer (Footer_CURRENT_YEAR m)) w)))
  /\ (forall props w0,
        after (Next.link_onClick props None) w0
        = mkWorld (fullYear w0) (console w0) (Next.href_of props)).
Proof.
  cbv zeta.
  split.
  { repeat split; (apply Home_pure || apply pure_ret). }
  split.
  { eexists. repeat split; reflexivity. }
  split.
  { intro w0. rewrite (Home_constant m (after Hero.handleGetEstimate w0) w0).
    unfold after. rewrite handleGetEstimate_spec. repeat split; reflexivity. }
  do 4 (split; [reflexivity |]).
  split.
  { eapply Forall_impl;
      [| apply (Forall_implb is_link (fun n => negb (has_handler n)));
         vm_compute; reflexivity].
    intros n Hn Hl. specialize (Hn Hl).
    unfold has_handler in Hn. destruct (onClick_of n); [discriminate | reflexivity]. }
  do 8 (split; [reflexivity |]).
  split; [| intros props w0; reflexivity].
  apply Forall_forall. intros n Hn.
  assert (H : forallb (fun x => negb (has_handler x))
                (subtrees (Next.render_links
                             (result (Footer.Footer (Footer_CURRENT_YEAR m)) w))) = true)
    by (vm_compute; reflexivity).
  rewrite forallb_forall in H. specialize (H n Hn).
  destruct (has_handler n); [discriminate | reflexivity].
Qed.

(** C8, as the specification states it, fails: seventeen interactive
    elements of the page, the three navigation links of the header and the
    fourteen links of the footer columns, carry no aria-label. *)
Lemma C8_text_links_carry_no_label :
  map key_of (select (fun n => interactive n && negb (labelled n))
                     (result (Home (mkLoaded 2025)) world_2025))
  = [Some "/enterprise"; Some "/partners"; Some "/support";
     Some "/about"; Some "/offers"; Some "/careers"; Some "/blog";
     Some "/services/city-tempo"; Some "/services/packers-movers";
     Some "/partners"; Some "/enterprise";
     Some "/help"; Some "/contact"; Some "/privacy"; Some "/terms";
     Some "https://play.google.com/store"; Some "https://apps.apple.com"]
  /\ ~ (every_interactive_labelled (result (Home (mkLoaded 2025)) world_2025)
        /\ every_decorative_hidden (result (Home (mkLoaded 2025)) world_2025)).
Proof.
  split; [reflexivity |].
  intros [H _]. apply Forall_implb_conv in H.
  vm_compute in H. discriminate H.
Qed.

(** C8, amended: the page is a tree of semantic elements, a header, four
    sections and a footer under main, with five nav elements; every button
    and every nav carries an aria-label; every link carries an aria-label or
    is a text link standing in a labelled nav; and every decorative element
    is marked aria-hidden, the elements so marked being exactly the
    decorative ones. *)
Theorem C8_semantic_tree_with_labels (m : Loaded) (w : World) :
  let page := result (Home m) w in
  tag_of page = Some "main"
  /\ map tag_of (children_of page)
     = [Some "header"; Some "section"; Some "section"; Some "section";
        Some "section"; Some "footer"]
  /\ List.length (select (has_tag "nav") page) = 5%nat
  /\ Forall (fun n => has_tag "nav" n = true -> labelled n = true) (subtrees page)
  /\ Forall (fun n => has_tag "button" n = true -> labelled n = true) (subtrees page)
  /\ every_link_named page
  /\ map snd (with_ancestors [] page) = subtrees page
  /\ every_decorative_hidden page
  /\ select decorative page = select hidden page
  /\ List.length (select (has_tag "button") page) = 3%nat
  /\ List.length (select is_link page) = 22%nat
  /\ List.length (select decorative page) = 12%nat.
Proof.
  cbv zeta. unfold every_link_named, every_decorative_hidden.
  repeat match goal with
         | |- _ /\ _ => split
         | |- map snd _ = _ => apply with_ancestors_subtrees
         | |- _ = _ => reflexivity
         | |- Forall (fun n => _ -> _ = true) _ =>
             apply Forall_implb; vm_compute; reflexivity
         end.
  eapply Forall_impl;
    [| apply (Forall_implb (fun an => is_link (snd an))
                (fun an => labelled (snd an) || in_labelled_nav (fst an) (snd an)));
       vm_compute; reflexivity].
  intros an Han Hl. apply orb_true_iff, Han, Hl.
Qed.

(** ** Further properties: the root layout, clicks, the year *)

Lemma RootLayout_subtrees (children : Node) (w : World) :
  subtrees (result (RootLayout children) w)
  = result (RootLayout children) w
    :: elt "body" [("className", inter_className)] [children]
    :: subtrees children.
Proof.
  unfold RootLayout, result, ret, elt. cbn [fst subtrees flat_map].
  rewrite !app_nil_r. reflexivity.
Qed.

(** X1: RootLayout wraps whatever page it is given and adds nothing to it:
    the result is an html element (lang en) with one child, the body, whose
    one child is the page; the world is left as it was; and the handlers,
    the keyed nodes, the interactive elements, the text and the numbers of
    the document are those of the page. *)
Theorem X1_root_layout_wraps_page (children : Node) (w : World) :
  let document := result (RootLayout children) w in
  after (RootLayout children) w = w
  /\ tag_of document = Some "html"
  /\ prop "lang" document = Some (Str "en")
  /\ (exists body,
        children_of document = [body]
        /\ tag_of body = Some "body"
        /\ prop "className" body = Some inter_className
        /\ children_of body = [children])
  /\ (forall p : Node -> bool,
        p document = false ->
        p (elt "body" [("className", inter_className)] [children]) = false ->
        select p document = select p children)
  /\ select has_handler document = select has_handler children
  /\ keyed_nodes document = keyed_nodes children
  /\ select interactive document = select interactive children
  /\ textContent document = textContent children
  /\ numbers document = numbers children.
Proof.
  cbv zeta.
  assert (Hsel : forall p : Node -> bool,
             p (result (RootLayout children) w) = false ->
             p (elt "body" [("className", inter_className)] [children]) = false ->
             select p (result (RootLayout children) w) = select p children).
  { intros p Hdoc Hbody. unfold select. rewrite RootLayout_subtrees.
    cbn [filter]. rewrite Hdoc, Hbody. reflexivity. }
  split; [reflexivity |].
  split; [reflexivity |].
  split; [reflexivity |].
  split; [eexists; repeat split; reflexivity |].
  split; [exact Hsel |].
  split; [apply Hsel; reflexivity |].
  split; [apply Hsel; reflexivity |].
  split; [apply Hsel; reflexivity |].
  split.
  - unfold RootLayout, result, ret, elt. cbn [fst textContent map String.concat].
    reflexivity.
  - unfold numbers. rewrite RootLayout_subtrees. reflexivity.
Qed.

Lemma clicks_spec (n : nat) :
  forall w,
    after (clicks n) w
    = mkWorld (fullYear w) (console w ++ repeat "Get estimate clicked" n) (location w).
Proof.
  induction n as [| k IH]; intros [year lines url].
  - cbn. rewrite app_nil_r. reflexivity.
  - cbn [clicks]. rewrite after_bind. unfold after at 2.
    rewrite handleGetEstimate_spec. cbn [snd].
    rewrite IH. cbn [fullYear console location repeat].
    rewrite <- app_assoc. reflexivity.
Qed.

(** X2: n clicks on the Get an Estimate button append n lines to the console,
    one per click, after the lines that were there, and change nothing else:
    the location and the clock stay, the page renders as before, and n + k
    clicks are n clicks followed by k clicks. *)
Theorem X2_clicks_only_log (n : nat) (w : World) :
  after (clicks n) w
  = mkWorld (fullYear w) (console w ++ repeat "Get estimate clicked" n) (location w)
  /\ List.length (console (after (clicks n) w)) = (List.length (console w) + n)%nat
  /\ firstn (List.length (console w)) (console (after (clicks n) w)) = console w
  /\ (forall m, result (Home m) (after (clicks n) w) = result (Home m) w)
  /\ (forall k, after (clicks (n + k)) w = after (clicks k) (after (clicks n) w)).
Proof.
  rewrite clicks_spec. cbn [console].
  split; [reflexivity |].
  split; [rewrite length_app, repeat_length; reflexivity |].
  split.
  { rewrite firstn_app, Nat.sub_diag, firstn_all. cbn [firstn].
    apply app_nil_r. }
  split; [intro m; apply Home_constant |].
  intro k. rewrite !clicks_spec. cbn [fullYear console location].
  rewrite repeat_app, app_assoc. reflexivity.
Qed.

(** X3: the year the page shows is the one the clock gave when the modules
    were imported, not the one at the time of a render: every page of a run,
    whatever clicks and clock changes it holds, shows the year of the import,
    also when the clock has moved to another year, in which a fresh
    execution would show that other year. *)
Theorem X3_year_is_read_at_import (w : World) (events : list Event) (year : Z) :
  let m := result import_modules w in
  let later := mkWorld year (console w) (location w) in
  after import_modules w = w
  /\ Forall (fun page => numbers page = [fullYear w])
            (fst (run m events (after import_modules w)))
  /\ numbers (result (Home m) later) = [fullYear w]
  /\ map textContent
         (select (has_tag "p") (result (Footer.Footer (Footer_CURRENT_YEAR m)) later))
     = [("© " ++ string_of_Z (fullYear w) ++ " Porter. All rights reserved.")%string]
  /\ numbers (result first_page later) = [year].
Proof.
  cbv zeta.
  split; [reflexivity |].
  split.
  - eapply Forall_impl; [| apply run_pages].
    intros page ->. reflexivity.
  - repeat split; reflexivity.
Qed.

(** ** Further properties: the callbacks of the iterations, on any list *)

(** The components are their containers filled by the callbacks. *)
Lemma components_use_callbacks (year : Z) (w : World) :
  keyed_nodes (result Header.Header w) = map Header.nav_item Header.NAV_LINKS
  /\ keyed_nodes (result Hero.Hero w) = map Hero.service_option Hero.SERVICE_OPTIONS
  /\ keyed_nodes (result Services.Services w) = map Services.service_card Services.SERVICES
  /\ keyed_nodes (result Features.Features w) = map Features.feature_item Features.FEATURES
  /\ keyed_nodes (result Testimonials.Testimonials w)
     = map Testimonials.testimonial_card Testimonials.TESTIMONIALS
  /\ flat_map children_of
       (select (has_class (Footer.styles "grid")) (result (Footer.Footer year) w))
     = map Footer.footer_column Footer.FOOTER_COLUMNS
  /\ flat_map children_of
       (select (has_class (Footer.styles "socials")) (result (Footer.Footer year) w))
     = map Footer.social_link Footer.SOCIAL_LINKS.
Proof. repeat split; reflexivity. Qed.

Section Items.

Variables (E : Type) (item : E -> Node) (k : E -> string).

Hypothesis item_key : forall e, key_of (item e) = Some (k e).

Lemma sibling_keys_items tag key props onClick (l : list E) :
  sibling_keys (El tag key props onClick (map item l)) = map k l.
Proof.
  unfold sibling_keys. cbn [children_of].
  induction l as [| e l IH]; cbn [map flat_map].
  - reflexivity.
  - rewrite item_key, IH. reflexivity.
Qed.

Lemma keys_distinct_iff tag key props onClick (l : list E) :
  NoDup (sibling_keys (El tag key props onClick (map item l))) <-> NoDup (map k l).
Proof. rewrite sibling_keys_items. tauto. Qed.

Hypothesis item_alone : forall e, keyed_nodes (item e) = [item e].

Lemma keyed_nodes_items tag props (l : list E) :
  keyed_nodes (elt tag props (map item l)) = map item l.
Proof.
  unfold keyed_nodes, select, elt. cbn [subtrees filter has_key key_of is_some].
  induction l as [| e l IH]; cbn [map flat_map].
  - reflexivity.
  - rewrite filter_app, IH.
    change (filter has_key (subtrees (item e))) with (keyed_nodes (item e)).
    rewrite item_alone. reflexivity.
Qed.

End Items.

(** X4: for any list given to a callback of the page, the keys of the nodes
    it yields under one parent are pairwise distinct exactly when the key
    fields of the entries are: the hrefs of navigation and footer links, the
    labels of service options and social links, the ids of services,
    features and testimonials, the titles of footer columns. *)
Theorem X4_keys_distinct_iff_fields_distinct tag key props onClick :
  (forall l, NoDup (sibling_keys (El tag key props onClick (map Header.nav_item l)))
             <-> NoDup (map NavLink.href l))
  /\ (forall l, NoDup (sibling_keys (El tag key props onClick (map Hero.service_option l)))
                <-> NoDup (map ServiceOption.label l))
  /\ (forall l, NoDup (sibling_keys (El tag key props onClick (map Services.service_card l)))
                <-> NoDup (map Service.id l))
  /\ (forall l, NoDup (sibling_keys (El tag key props onClick (map Features.feature_item l)))
                <-> NoDup (map Feature.id l))
  /\ (forall l, NoDup (sibling_keys
                         (El tag key props onClick (map Testimonials.testimonial_card l)))
                <-> NoDup (map Testimonial.id l))
  /\ (forall l, NoDup (sibling_keys (El tag key props onClick (map Footer.column_link l)))
                <-> NoDup (map FooterLink.href l))
  /\ (forall l, NoDup (sibling_keys (El tag key props onClick (map Footer.footer_column l)))
                <-> NoDup (map FooterColumn.title l))
  /\ (forall l, NoDup (sibling_keys (El tag key props onClick (map Footer.social_link l)))
                <-> NoDup (map SocialLink.label l)).
Proof.
  repeat split; intros; eapply keys_distinct_iff; eauto; intros; reflexivity.
Qed.

Lemma column_links_subtrees (links : list FooterLink.t) :
  filter has_key (flat_map subtrees (map Footer.column_link links))
  = map Footer.column_link links.
Proof.
  induction links as [| link links IH]; cbn [map flat_map].
  - reflexivity.
  - rewrite filter_app, IH. reflexivity.
Qed.

Lemma footer_column_keyed (column : FooterColumn.t) :
  keyed_nodes (Footer.footer_column column)
  = Footer.footer_column column :: map Footer.column_link (FooterColumn.links column).
Proof.
  unfold keyed_nodes, select, Footer.footer_column, elt.
  cbn [subtrees flat_map filter has_key key_of is_some app].
  rewrite !app_nil_r, column_links_subtrees. reflexivity.
Qed.

(** X5: for any list, empty or not, a container filled by a callback holds
    exactly one keyed node per entry, the node of that entry, in the order
    of the list; a footer column holds its own node followed by one node per
    link of the column, so that columns hold as many keyed nodes as there
    are columns and links together; and the components of the page are such
    containers over their lists. *)
Theorem X5_one_keyed_node_per_entry_any_list tag props :
  (forall l, keyed_nodes (elt tag props (map Header.nav_item l)) = map Header.nav_item l)
  /\ (forall l, keyed_nodes (elt tag props (map Hero.service_option l))
                = map Hero.service_option l)
  /\ (forall l, keyed_nodes (elt tag props (map Services.service_card l))
                = map Services.service_card l)
  /\ (forall l, keyed_nodes (elt tag props (map Features.feature_item l))
                = map Features.feature_item l)
  /\ (forall l, keyed_nodes (elt tag props (map Testimonials.testimonial_card l))
                = map Testimonials.testimonial_card l)
  /\ (forall l, keyed_nodes (elt tag props (map Footer.social_link l))
                = map Footer.social_link l)
  /\ (forall column,
        keyed_nodes (Footer.footer_column column)
        = Footer.footer_column column
          :: map Footer.column_link (FooterColumn.links column))
  /\ (forall columns,
        List.length (keyed_nodes (elt tag props (map Footer.footer_column columns)))
        = (List.length columns
           + list_sum (map (fun c => List.length (FooterColumn.links c)) columns))%nat)
  /\ (forall year w,
        keyed_nodes (result Services.Services w)
        = map Services.service_card Services.SERVICES
        /\ flat_map children_of
             (select (has_class (Footer.styles "grid")) (result (Footer.Footer year) w))
           = map Footer.footer_column Footer.FOOTER_COLUMNS).
Proof.
  repeat match goal with
         | |- (forall l, keyed_nodes (elt _ _ (map _ l)) = _) /\ _ =>
             split; [intro l; apply keyed_nodes_items; intro; reflexivity |]
         end.
  split; [exact footer_column_keyed |].
  split.
  - intro columns.
    unfold keyed_nodes, select, elt. cbn [subtrees filter has_key key_of is_some].
    induction columns as [| c columns IH]; cbn [map flat_map list_sum List.length].
    + reflexivity.
    + rewrite filter_app, length_app, IH.
      change (filter has_key (subtrees (Footer.footer_column c)))
        with (keyed_nodes (Footer.footer_column c)).
      rewrite footer_column_keyed. cbn [List.length]. rewrite length_map.
      unfold list_sum. cbn [fold_right]. lia.
  - intros year w. split; reflexivity.
Qed.

Section LinksInNav.

Variables (E : Type) (item : E -> Node) (label : E -> string).

Hypothesis item_walk :
  forall chain e,
    with_ancestors chain (item e) = [(chain, item e); (item e :: chain, Text (label e))].
Hypothesis item_link : forall e, is_link (item e) = true.
Hypothesis item_unlabelled : forall e, labelled (item e) = false.
Hypothesis item_text : forall e, textContent (item e) = label e.

Lemma links_in_nav_named (parent : Node) (chain : list Node) (l : list E) :
  has_tag "nav" parent && labelled parent = true ->
  Forall (fun an => is_link (snd an) = true ->
                    labelled (snd an) = true \/ in_labelled_nav (fst an) (snd an) = true)
         (flat_map (with_ancestors (parent :: chain)) (map item l))
  <-> forallb (fun e => negb (String.eqb (label e) "")) l = true.
Proof.
  intro Hnav.
  induction l as [| e l IH]; cbn [map flat_map forallb].
  - split; [reflexivity | constructor].
  - rewrite item_walk. cbn [app]. rewrite !Forall_cons_iff, IH, andb_true_iff.
    cbn [fst snd]. unfold in_labelled_nav.
    rewrite item_link, item_unlabelled, item_text, Hnav. cbn [andb is_link has_tag tag_of orb].
    intuition congruence.
Qed.

End LinksInNav.

(** X6: whatever a footer column or the header navigation is given, its
    links are named for assistive technology exactly when no label of the
    list is empty: a link with a label stands as a text link in a labelled
    nav, and a link with an empty label has neither a text nor an
    aria-label. *)
Theorem X6_links_named_iff_labels_not_empty :
  (forall column,
      every_link_named (Footer.footer_column column)
      <-> forallb (fun link => negb (String.eqb (FooterLink.label link) ""))
                  (FooterColumn.links column) = true)
  /\ (forall links,
        every_link_named
          (elt "nav" [("className", Header.styles "nav");
                      ("aria-label", Str "Main navigation")]
               (map Header.nav_item links))
        <-> forallb (fun link => negb (String.eqb (NavLink.label link) "")) links = true).
Proof.
  split.
  - intro column. unfold every_link_named, Footer.footer_column, elt.
    cbn [with_ancestors flat_map app].
    rewrite !app_nil_r, !Forall_cons_iff.
    rewrite (links_in_nav_named Footer.column_link FooterLink.label);
      try (intros; reflexivity).
    cbn. intuition discriminate.
  - intro links. unfold every_link_named, elt.
    cbn [with_ancestors].
    rewrite Forall_cons_iff.
    rewrite (links_in_nav_named Header.nav_item NavLink.label);
      try (intros; reflexivity).
    cbn. intuition discriminate.
Qed.

Lemma implies_false_iff (b : bool) : (b = true -> false = true) <-> b = false.
Proof. destruct b; intuition discriminate. Qed.

(** Reduces "every decorative element of this item is hidden" to what it
    says of the texts of the entry. *)
Ltac decorative_by_cases :=
  unfold every_decorative_hidden, Services.service_card, Features.feature_item,
    Hero.service_option, elt;
  cbn [subtrees flat_map app];
  rewrite !Forall_cons_iff;
  unfold decorative, hidden, has_prop, prop, interactive, has_tag;
  cbn [children_of tag_of props_of lookup String.eqb Ascii.eqb Bool.eqb
       AttrVal_eqb negb orb andb forallb];
  rewrite ?andb_true_r, ?implies_false_iff;
  intuition (try discriminate; try reflexivity; try apply Forall_nil).

(** X7: in a service card, a feature and a service option the element of
    the icon is marked aria-hidden whatever the entry holds, and it is the
    only element so marked; every decorative element of the item is hidden
    exactly when the texts of the entry (title and description, or label)
    are not pictographs alone, since the elements showing these texts are
    never marked. *)
Theorem X7_icons_hidden_texts_not :
  (forall service,
      map textContent (select hidden (Services.service_card service))
      = [Service.icon service]
      /\ (every_decorative_hidden (Services.service_card service)
          <-> pictograph (Text (Service.title service)) = false
              /\ pictograph (Text (Service.description service)) = false))
  /\ (forall feature,
        map textContent (select hidden (Features.feature_item feature))
        = [Feature.icon feature]
        /\ (every_decorative_hidden (Features.feature_item feature)
            <-> pictograph (Text (Feature.title feature)) = false
                /\ pictograph (Text (Feature.description feature)) = false))
  /\ (forall option,
        map textContent (select hidden (Hero.service_option option))
        = [ServiceOption.icon option]
        /\ (every_decorative_hidden (Hero.service_option option)
            <-> pictograph (Text (ServiceOption.label option)) = false)).
Proof.
  split; [| split]; intro entry; (split; [reflexivity | decorative_by_cases]).
Qed.
